(** * Text-to-SQL demo: the mock generator, the mock executor and the
      session handling of [main] (src/text_to_sql_app.py).

    Python [str] values are modelled as Rocq strings, read as the UTF-8
    encoding of the text: equality, concatenation and the substring test
    [in] on byte strings agree with the same operations on the encoded
    text.  [str.lower] belongs to the Python runtime, not to this
    repository; the functions below take it as the section variable
    [lower], and [lower_ascii] is the instance that agrees with Python on
    ASCII text, used to evaluate the functions on concrete inputs.

    Exceptions are results in the [result] monad.  The latency calls
    [time.sleep] and the rendering calls of Streamlit that do not touch
    [st.session_state] are left out. *)

From Stdlib Require Import String Ascii List ZArith QArith Bool Lia.
From stdpp Require Import base option list gmap strings.

Local Open Scope string_scope.

(** ** Exceptions *)

Inductive exception : Type :=
  | IndexError (msg : string)
  | ValueError (msg : string).

Inductive result (A : Type) : Type :=
  | Ok (a : A)
  | Raise (e : exception).
Arguments Ok {A} a.
Arguments Raise {A} e.

#[global] Instance result_ret : MRet result := fun A a => Ok a.
#[global] Instance result_bind : MBind result := fun A B f m =>
  match m with
  | Ok a => f a
  | Raise e => Raise e
  end.

(** ** Python string and list primitives *)

(** [needle in hay] for two [str] values. *)
Fixpoint str_in (needle hay : string) : bool :=
  String.prefix needle hay ||
  match hay with
  | EmptyString => false
  | String _ rest => str_in needle rest
  end.

(** [str.lower] on ASCII text: the letters A-Z go to a-z, every other
    byte is kept. *)
Definition lower_char (c : ascii) : ascii :=
  let n := nat_of_ascii c in
  if (65 <=? n)%nat && (n <=? 90)%nat then ascii_of_nat (n + 32) else c.

Fixpoint lower_ascii (s : string) : string :=
  match s with
  | EmptyString => EmptyString
  | String c rest => String (lower_char c) (lower_ascii rest)
  end.

(** Truth value of a [str] and of a [list]: non-empty. *)
Definition str_truthy (s : string) : bool :=
  match s with
  | EmptyString => false
  | String _ _ => true
  end.

Definition list_truthy {A} (l : list A) : bool :=
  match l with
  | [] => false
  | _ :: _ => true
  end.

(** [l[i]] for a non-negative index: IndexError out of range. *)
Definition getitem {A} (l : list A) (i : nat) : result A :=
  match l !! i with
  | Some x => Ok x
  | None => Raise (IndexError "list index out of range")
  end.

(** [range(a, b)] as the list of its elements. *)
Definition py_range (a b : Z) : list Z := seqZ a (b - a).

(** ** Data frames *)

Inductive cell : Type :=
  | CInt (z : Z)
  | CFloat (q : Q)
  | CStr (s : string)
  | CBool (b : bool).

(** A data frame keeps its columns in the order of the dict it was built
    from, each with the list of its values. *)
Record DataFrame : Type := mkDataFrame {
  df_data : list (string * list cell)
}.

(** [df.columns] *)
Definition df_columns (df : DataFrame) : list string := (df_data df).*1.

(** [len(df)]: the number of rows. *)
Definition df_len (df : DataFrame) : nat :=
  match df_data df with
  | [] => 0
  | (_, col) :: _ => length col
  end.

(** [pd.DataFrame(d)] for a dict of lists: ValueError when the lists do
    not all have the same length. *)
Definition pd_DataFrame (d : list (string * list cell)) : result DataFrame :=
  match d with
  | [] => Ok (mkDataFrame [])
  | (_, col) :: rest =>
      if forallb (fun kv => (length kv.2 =? length col)%nat) rest
      then Ok (mkDataFrame d)
      else Raise (ValueError "All arrays must be of the same length")
  end.

(** ** The heap of list objects

    Python lists are objects: the list returned by the table multiselect
    and the list stored in a history record are told apart by their
    location.  A location that holds nothing reads as the empty list. *)

Definition loc : Type := positive.

Definition deref (h : gmap loc (list string)) (l : loc) : list string :=
  default [] (h !! l).

(** [l.copy()]: a new list object with the elements of [l]. *)
Definition list_copy (h : gmap loc (list string)) (l : loc)
  : loc * gmap loc (list string) :=
  let c := fresh (dom h) in
  (c, <[c := deref h l]> h).

(** ** Session state *)

Record history_entry : Type := mkEntry {
  timestamp : string;
  question : string;
  sql : string;
  tables : loc
}.

(** [st.session_state] as Streamlit keeps it between runs: a key is
    absent until the script first sets it. *)
Record st_session_state : Type := mkStored {
  stored_generated_sql : option string;
  stored_query_results : option (option DataFrame);
  stored_query_history : option (list history_entry)
}.

(** The session state once the three keys exist. *)
Record session_state : Type := mkSession {
  generated_sql : string;
  query_results : option DataFrame;
  query_history : list history_entry
}.

Definition persist (s : session_state) : st_session_state :=
  mkStored (Some (generated_sql s)) (Some (query_results s))
           (Some (query_history s)).

(** Lines 154-159: each key is created only when it is missing. *)
Definition init_session_state (ss : st_session_state) : session_state :=
  mkSession (default "" (stored_generated_sql ss))
            (default None (stored_query_results ss))
            (default [] (stored_query_history ss)).

(** ** Widgets *)

Inductive button : Type :=
  | GenerateSQL | ClearAll | CopySQL | Execute | Explain
  | DownloadCSV | CopyData.

#[global] Instance button_eq_dec : EqDecision button.
Proof. solve_decision. Defined.

(** What the widgets return in one run of the script.  Streamlit reruns
    the script once per user action, so at most one button reads True. *)
Record widgets : Type := mkWidgets {
  selected_db : string;
  selected_tables : loc;
  text_query : string;
  clicked : option button
}.

(** [st.button(...)] for an enabled button. *)
Definition pressed (w : widgets) (b : button) : bool :=
  bool_decide (clicked w = Some b).

(** The messages of [st.success] and [st.error] in the two try blocks. *)
Inductive notice : Type :=
  | GenerateSuccess
  | GenerateError (e : exception)
  | ExecuteSuccess (rows : nat)
  | ExecuteError (e : exception).

Definition is_error (n : notice) : bool :=
  match n with
  | GenerateError _ | ExecuteError _ => true
  | GenerateSuccess | ExecuteSuccess _ => false
  end.

(** The outcome of one run of the script. *)
Record run : Type := mkRun {
  heap_of : gmap loc (list string);
  state_of : session_state;
  notices : list notice;
  rerun : bool
}.

(** ** The mock pipeline *)

(** First-match-wins over an ordered rule table, as the specification
    words the matching policy: a rule fires when all its substrings occur
    in the text; when none fires the default is the answer. *)
Fixpoint first_match_wins {A} (rules : list (list string * A)) (dflt : A)
    (text : string) : A :=
  match rules with
  | [] => dflt
  | (keys, out) :: rest =>
      if forallb (fun k => str_in k text) keys then out
      else first_match_wins rest dflt text
  end.

(** The four keyword pairs of the generator, in source order. *)
Definition generator_rules : list (list string * string) :=
  [ (["users"; "count"],
     "SELECT COUNT(*) as total_users FROM users WHERE is_active = TRUE;");
    (["products"; "price"],
     "SELECT name, price FROM products WHERE price > 100 ORDER BY price DESC;");
    (["orders"; "total"],
     "SELECT SUM(total_amount) as total_revenue FROM orders WHERE status = 'completed';");
    (["employees"; "salary"],
     "SELECT first_name, last_name, salary FROM employees WHERE salary > 50000 ORDER BY salary DESC;") ].

(** The generic sample table of the executor's last branch. *)
Definition sample_table : list (string * list cell) :=
  [ ("id", [CInt 1; CInt 2; CInt 3; CInt 4; CInt 5]);
    ("sample_column",
     [CStr "Data 1"; CStr "Data 2"; CStr "Data 3"; CStr "Data 4"; CStr "Data 5"]);
    ("value", [CInt 100; CInt 200; CInt 300; CInt 400; CInt 500]) ].

(** The five substring rules of the executor, in source order. *)
Definition executor_rules : list (list string * list (string * list cell)) :=
  [ (["count(*)"; "users"], [ ("total_users", [CInt 1247]) ]);
    (["name, price"; "products"],
     [ ("name", [CStr "Premium Laptop"; CStr "Gaming Monitor";
                 CStr "Wireless Headphones"; CStr "Smart Watch";
                 CStr "Tablet Pro"]);
       ("price", [CFloat (129999 # 100); CFloat (84999 # 100);
                  CFloat (29999 # 100); CFloat (39999 # 100);
                  CFloat (89999 # 100)]) ]);
    (["sum(total_amount)"; "orders"],
     [ ("total_revenue", [CFloat (284567250 # 100)]) ]);
    (["first_name, last_name, salary"; "employees"],
     [ ("first_name", [CStr "Alice"; CStr "Bob"; CStr "Carol"; CStr "David";
                       CStr "Emma"]);
       ("last_name", [CStr "Johnson"; CStr "Smith"; CStr "Brown";
                      CStr "Wilson"; CStr "Davis"]);
       ("salary", [CFloat (8500000 # 100); CFloat (9200000 # 100);
                   CFloat (7800000 # 100); CFloat (10500000 # 100);
                   CFloat (8800000 # 100)]) ]);
    (["users"],
     [ ("id", [CInt 1; CInt 2; CInt 3; CInt 4; CInt 5]);
       ("username", [CStr "alice_j"; CStr "bob_smith"; CStr "carol_b";
                     CStr "david_w"; CStr "emma_d"]);
       ("email", [CStr "alice@email.com"; CStr "bob@email.com";
                  CStr "carol@email.com"; CStr "david@email.com";
                  CStr "emma@email.com"]);
       ("created_at", [CStr "2024-01-15"; CStr "2024-02-20";
                       CStr "2024-03-10"; CStr "2024-04-05";
                       CStr "2024-05-12"]);
       ("is_active", [CBool true; CBool true; CBool false; CBool true;
                      CBool true]) ]) ].

Section Pipeline.

(** [str.lower] of the Python runtime. *)
Variable lower : string -> string.

(** Lines 92-108. *)
Definition mock_llm_query (text_query : string)
    (selected_tables : list string) (database : string) : result string :=
  let query_lower := lower text_query in
  if str_in "users" query_lower && str_in "count" query_lower then
    Ok "SELECT COUNT(*) as total_users FROM users WHERE is_active = TRUE;"
  else if str_in "products" query_lower && str_in "price" query_lower then
    Ok "SELECT name, price FROM products WHERE price > 100 ORDER BY price DESC;"
  else if str_in "orders" query_lower && str_in "total" query_lower then
    Ok "SELECT SUM(total_amount) as total_revenue FROM orders WHERE status = 'completed';"
  else if str_in "employees" query_lower && str_in "salary" query_lower then
    Ok "SELECT first_name, last_name, salary FROM employees WHERE salary > 50000 ORDER BY salary DESC;"
  else
    t ← (if list_truthy selected_tables then getitem selected_tables 0
         else Ok "table_name");
    Ok ("SELECT * FROM " +:+ t +:+ " LIMIT 10;").

(** Lines 110-146. *)
Definition mock_execute_query (sql_query database : string)
    : result DataFrame :=
  let query_lower := lower sql_query in
  if str_in "count(*)" query_lower && str_in "users" query_lower then
    pd_DataFrame [ ("total_users", [CInt 1247]) ]
  else if str_in "name, price" query_lower
          && str_in "products" query_lower then
    pd_DataFrame
      [ ("name", [CStr "Premium Laptop"; CStr "Gaming Monitor";
                  CStr "Wireless Headphones"; CStr "Smart Watch";
                  CStr "Tablet Pro"]);
        ("price", [CFloat (129999 # 100); CFloat (84999 # 100);
                   CFloat (29999 # 100); CFloat (39999 # 100);
                   CFloat (89999 # 100)]) ]
  else if str_in "sum(total_amount)" query_lower
          && str_in "orders" query_lower then
    pd_DataFrame [ ("total_revenue", [CFloat (284567250 # 100)]) ]
  else if str_in "first_name, last_name, salary" query_lower
          && str_in "employees" query_lower then
    pd_DataFrame
      [ ("first_name", [CStr "Alice"; CStr "Bob"; CStr "Carol";
                        CStr "David"; CStr "Emma"]);
        ("last_name", [CStr "Johnson"; CStr "Smith"; CStr "Brown";
                       CStr "Wilson"; CStr "Davis"]);
        ("salary", [CFloat (8500000 # 100); CFloat (9200000 # 100);
                    CFloat (7800000 # 100); CFloat (10500000 # 100);
                    CFloat (8800000 # 100)]) ]
  else if str_in "users" query_lower then
    pd_DataFrame
      [ ("id", CInt <$> py_range 1 6);
        ("username", [CStr "alice_j"; CStr "bob_smith"; CStr "carol_b";
                      CStr "david_w"; CStr "emma_d"]);
        ("email", [CStr "alice@email.com"; CStr "bob@email.com";
                   CStr "carol@email.com"; CStr "david@email.com";
                   CStr "emma@email.com"]);
        ("created_at", [CStr "2024-01-15"; CStr "2024-02-20";
                        CStr "2024-03-10"; CStr "2024-04-05";
                        CStr "2024-05-12"]);
        ("is_active", [CBool true; CBool true; CBool false; CBool true;
                       CBool true]) ]
  else
    pd_DataFrame
      [ ("id", CInt <$> py_range 1 6);
        ("sample_column", [CStr "Data 1"; CStr "Data 2"; CStr "Data 3";
                           CStr "Data 4"; CStr "Data 5"]);
        ("value", [CInt 100; CInt 200; CInt 300; CInt 400; CInt 500]) ].

(** Line 238: the Generate button is disabled unless a question, a
    table and a database are all given; a disabled button reads False. *)
Definition generate_enabled (w : widgets) (h : gmap loc (list string))
    : bool :=
  str_truthy (text_query w)
  && list_truthy (deref h (selected_tables w))
  && str_truthy (selected_db w).

Definition generate_btn (w : widgets) (h : gmap loc (list string))
    : bool :=
  pressed w GenerateSQL && generate_enabled w h.

Definition clear_btn (w : widgets) : bool := pressed w ClearAll.

Definition execute_btn (w : widgets) : bool := pressed w Execute.

(** Lines 250-266: the try block of the Generate button.  The call of
    [mock_llm_query] is its first statement, so an exception leaves the
    session state as it was. *)
Definition generate_block (w : widgets) (now : string)
    (h : gmap loc (list string)) (s : session_state)
    : gmap loc (list string) * session_state * list notice :=
  match mock_llm_query (text_query w) (deref h (selected_tables w))
                       (selected_db w) with
  | Ok new_sql =>
      let (c, h') := list_copy h (selected_tables w) in
      let entry := mkEntry now (text_query w) new_sql c in
      (h', mkSession new_sql None (query_history s ++ [entry]),
       [GenerateSuccess])
  | Raise e => (h, s, [GenerateError e])
  end.

(** Lines 269-270. *)
Definition clear_block (s : session_state) : session_state :=
  mkSession "" None (query_history s).

(** Lines 301-307: the try block of the Execute button. *)
Definition execute_block (w : widgets) (s : session_state)
    : session_state * list notice :=
  match mock_execute_query (generated_sql s) (selected_db w) with
  | Ok results =>
      (mkSession (generated_sql s) (Some results) (query_history s),
       [ExecuteSuccess (df_len results)])
  | Raise e => (s, [ExecuteError e])
  end.

(** One run of [main], lines 148-375, on the widget values [w], the
    clock reading [now], the heap [h] and the stored session [ss].
    [st.rerun()] ends the run at line 271. *)
Definition main (w : widgets) (now : string) (h : gmap loc (list string))
    (ss : st_session_state) : run :=
  let s0 := init_session_state ss in
  let '(h1, s1, n1) :=
    if generate_btn w h then generate_block w now h s0
    else (h, s0, []) in
  if clear_btn w then mkRun h1 (clear_block s1) n1 true
  else if str_truthy (generated_sql s1) then
    if execute_btn w then
      let (s2, n2) := execute_block w s1 in
      mkRun h1 s2 (n1 ++ n2) false
    else mkRun h1 s1 n1 false
  else mkRun h1 s1 n1 false.

(** One user action: the run it triggers and, when the run asked for
    it, the rerun of the script, in which no button reads True. *)
Definition no_click (w : widgets) : widgets :=
  mkWidgets (selected_db w) (selected_tables w) (text_query w) None.

Definition user_action (w : widgets) (now later : string)
    (h : gmap loc (list string)) (ss : st_session_state) : run :=
  let r := main w now h ss in
  if rerun r
  then main (no_click w) later (heap_of r) (persist (state_of r))
  else r.

End Pipeline.

(** The stored results are what the executor returns for the stored SQL. *)
Definition results_match_sql (lower : string -> string) (s : session_state)
    : Prop :=
  forall df, query_results s = Some df ->
  forall db, mock_execute_query lower (generated_sql s) db = Ok df.

(** ** Sample inputs *)

(** The Generate button pressed with a question and the default selection
    of the e-commerce database. *)
Definition sample_heap : gmap loc (list string) :=
  {[ 1%positive := ["users"; "products"] ]}.

Definition sample_generate : widgets :=
  mkWidgets "ecommerce_db" 1%positive "Count the users" (Some GenerateSQL).

(** Clear All pressed in a session that holds SQL, results and one
    history record. *)
Definition sample_clear : widgets :=
  mkWidgets "ecommerce_db" 1%positive "" (Some ClearAll).

Definition sample_stored : st_session_state :=
  mkStored (Some "SELECT * FROM orders LIMIT 10;")
           (Some (Some (mkDataFrame sample_table)))
           (Some [mkEntry "2024-06-01 12:00:00" "Show the orders"
                          "SELECT * FROM orders LIMIT 10;" 2%positive]).

Definition sample_stored_heap : gmap loc (list string) :=
  {[ 1%positive := ["users"; "products"]; 2%positive := ["orders"] ]}.

(** ** The schema catalog and the sidebar (lines 17-90 and 162-189)

    A dict is the list of its items in insertion order; a lookup of a
    missing key is the KeyError of Python. *)

Record table_schema : Type := mkTable {
  ddl : string;
  columns : list string
}.

Definition MOCK_DATABASES : list (string * list (string * table_schema)) :=
  [
    ("ecommerce_db",
     [
       ("users",
        mkTable
"CREATE TABLE users (
    id INTEGER PRIMARY KEY,
    username VARCHAR(50) UNIQUE NOT NULL,
    email VARCHAR(100) UNIQUE NOT NULL,
    created_at TIMESTAMP DEFAULT CURRENT_TIMESTAMP,
    last_login TIMESTAMP,
    is_active BOOLEAN DEFAULT TRUE
);"
          ["id"; "username"; "email"; "created_at"; "last_login"; "is_active"]);
       ("products",
        mkTable
"CREATE TABLE products (
    id INTEGER PRIMARY KEY,
    name VARCHAR(200) NOT NULL,
    description TEXT,
    price DECIMAL(10,2) NOT NULL,
    category_id INTEGER,
    stock_quantity INTEGER DEFAULT 0,
    created_at TIMESTAMP DEFAULT CURRENT_TIMESTAMP,
    FOREIGN KEY (category_id) REFERENCES categories(id)
);"
          ["id"; "name"; "description"; "price"; "category_id"; "stock_quantity"; "created_at"]);
       ("orders",
        mkTable
"CREATE TABLE orders (
    id INTEGER PRIMARY KEY,
    user_id INTEGER NOT NULL,
    total_amount DECIMAL(10,2) NOT NULL,
    status VARCHAR(20) DEFAULT 'pending',
    order_date TIMESTAMP DEFAULT CURRENT_TIMESTAMP,
    FOREIGN KEY (user_id) REFERENCES users(id)
);"
          ["id"; "user_id"; "total_amount"; "status"; "order_date"]);
       ("categories",
        mkTable
"CREATE TABLE categories (
    id INTEGER PRIMARY KEY,
    name VARCHAR(100) NOT NULL,
    description TEXT,
    parent_id INTEGER,
    FOREIGN KEY (parent_id) REFERENCES categories(id)
);"
          ["id"; "name"; "description"; "parent_id"]) ]);
    ("hr_system",
     [
       ("employees",
        mkTable
"CREATE TABLE employees (
    id INTEGER PRIMARY KEY,
    first_name VARCHAR(50) NOT NULL,
    last_name VARCHAR(50) NOT NULL,
    email VARCHAR(100) UNIQUE NOT NULL,
    department_id INTEGER,
    salary DECIMAL(10,2),
    hire_date DATE NOT NULL,
    FOREIGN KEY (department_id) REFERENCES departments(id)
);"
          ["id"; "first_name"; "last_name"; "email"; "department_id"; "salary"; "hire_date"]);
       ("departments",
        mkTable
"CREATE TABLE departments (
    id INTEGER PRIMARY KEY,
    name VARCHAR(100) NOT NULL,
    budget DECIMAL(12,2),
    manager_id INTEGER,
    FOREIGN KEY (manager_id) REFERENCES employees(id)
);"
          ["id"; "name"; "budget"; "manager_id"]) ]) ].

(** [d[k]] for a dict with keys of type [str]. *)
Fixpoint dict_get {V} (d : list (string * V)) (k : string) : option V :=
  match d with
  | [] => None
  | (k', v) :: rest => if String.eqb k' k then Some v else dict_get rest k
  end.

(** What rendering can fail with. *)
Inductive render_error : Type :=
  | KeyError (key : string)
  | FrameError (e : exception).

Definition lookup_key {V} (d : list (string * V)) (k : string)
    : render_error + V :=
  match dict_get d k with
  | Some v => inr v
  | None => inl (KeyError k)
  end.

(** Line 168: the options of the database select box. *)
Definition database_options : list string := MOCK_DATABASES.*1.

(** Line 179: the options of the table multiselect. *)
Definition available_tables (selected_db : string)
    : render_error + list string :=
  if str_truthy selected_db then
    match lookup_key MOCK_DATABASES selected_db with
    | inr tbls => inr (tbls.*1)
    | inl e => inl e
    end
  else inr [].

(** Line 184: the default selection, [available_tables[:2]]. *)
Definition default_tables (available : list string) : list string :=
  if list_truthy available then take 2 available else [].

(** Lines 207-210: the frame of column names and their 1-based index. *)
Definition columns_df (cols : list string) : result DataFrame :=
  pd_DataFrame
    [ ("Column", CStr <$> cols);
      ("Index", CInt <$> py_range 1 (Z.of_nat (length cols) + 1)) ].

(** Lines 197-211: what one tab of the DDL section shows for a table. *)
Definition table_tab (selected_db table : string)
    : render_error + (string * DataFrame) :=
  match lookup_key MOCK_DATABASES selected_db with
  | inl e => inl e
  | inr tbls =>
      match lookup_key tbls table with
      | inl e => inl e
      | inr schema =>
          match columns_df (columns schema) with
          | Ok df => inr (ddl schema, df)
          | Raise e => inl (FrameError e)
          end
      end
  end.

(** Lines 192-213: the DDL section, one tab per selected table, drawn
    only when a table is selected.  The first failing tab ends the run. *)
Fixpoint table_tabs (selected_db : string) (selected_tables : list string)
    : render_error + list (string * DataFrame) :=
  match selected_tables with
  | [] => inr []
  | table :: rest =>
      match table_tab selected_db table with
      | inl e => inl e
      | inr tab =>
          match table_tabs selected_db rest with
          | inl e => inl e
          | inr tabs => inr (tab :: tabs)
          end
      end
  end.

(** ** The results panel (lines 312-351) *)

Inductive dtype : Type := Int64 | Float64 | BoolType | ObjectType.

Definition is_int (c : cell) : bool :=
  match c with CInt _ => true | _ => false end.

Definition is_number (c : cell) : bool :=
  match c with CInt _ | CFloat _ => true | _ => false end.

Definition is_bool (c : cell) : bool :=
  match c with CBool _ => true | _ => false end.

(** The dtype pandas gives a column built from a list of Python values. *)
Definition infer_dtype (col : list cell) : dtype :=
  if negb (list_truthy col) then ObjectType
  else if forallb is_int col then Int64
  else if forallb is_number col then Float64
  else if forallb is_bool col then BoolType
  else ObjectType.

(** [df.select_dtypes(include=['number']).columns] *)
Definition is_numeric_dtype (t : dtype) : bool :=
  match t with
  | Int64 | Float64 => true
  | BoolType | ObjectType => false
  end.

Definition numeric_cols (df : DataFrame) : list string :=
  (List.filter (fun kv => is_numeric_dtype (infer_dtype kv.2))
               (df_data df)).*1.

(** What the insights expander holds. *)
Inductive insights : Type :=
  | NumericSummary (cols : list string)
  | NoNumericColumns.

(** The panel for stored results: the two metrics and, when there is at
    least one row, the insights. *)
Record results_panel : Type := mkPanel {
  rows_returned : nat;
  columns_count : nat;
  quick_insights : option insights
}.

Definition render_results (s : session_state) : option results_panel :=
  match query_results s with
  | None => None
  | Some df =>
      Some (mkPanel (df_len df) (length (df_columns df))
              (if (0 <? df_len df)%nat then
                 Some (if (0 <? length (numeric_cols df))%nat
                       then NumericSummary (numeric_cols df)
                       else NoNumericColumns)
               else None))
  end.

(** ** The history section (lines 354-363) *)

(** [l[-n:]] *)
Definition py_last {A} (n : nat) (l : list A) : list A :=
  drop (length l - n) l.

(** The records shown, each with the number printed before it:
    [enumerate(reversed(history[-5:]))], numbered [len(history) - i]. *)
Definition history_view (history : list history_entry)
    : list (Z * history_entry) :=
  imap (fun i query => (Z.of_nat (length history) - Z.of_nat i, query)%Z)
       (reverse (py_last 5 history)).

(** ** A session as a sequence of user actions

    Before each run Streamlit reads the widgets; the table multiselect
    returns a new list object.  A session starts with no list objects and
    no key in the session state. *)

Record event : Type := mkEvent {
  ev_db : string;
  ev_tables : list string;
  ev_text : string;
  ev_click : option button;
  ev_now : string;
  ev_later : string
}.

Definition session_step (lower : string -> string) (e : event)
    (st : gmap loc (list string) * st_session_state)
    : gmap loc (list string) * st_session_state :=
  let sel := fresh (dom st.1) in
  let h := <[sel := ev_tables e]> st.1 in
  let r := user_action lower
             (mkWidgets (ev_db e) sel (ev_text e) (ev_click e))
             (ev_now e) (ev_later e) h st.2 in
  (heap_of r, persist (state_of r)).

Definition session_run (lower : string -> string) (events : list event)
    (st : gmap loc (list string) * st_session_state)
    : gmap loc (list string) * st_session_state :=
  foldl (fun st e => session_step lower e st) st events.

Definition new_session : gmap loc (list string) * st_session_state :=
  (∅, mkStored None None None).

(** A Generate click that the enabled button takes. *)
Definition accepted (e : event) : bool :=
  bool_decide (ev_click e = Some GenerateSQL)
  && (str_truthy (ev_text e) && list_truthy (ev_tables e)
      && str_truthy (ev_db e)).

(** A history record is sound when its table list is a non-empty list
    object of the heap and its SQL is what the generator returns for its
    question and that list. *)
Definition entry_sound (lower : string -> string)
    (h : gmap loc (list string)) (e : history_entry) : Prop :=
  tables e ∈ dom h
  /\ list_truthy (deref h (tables e)) = true
  /\ str_truthy (question e) = true
  /\ forall db,
       mock_llm_query lower (question e) (deref h (tables e)) db
       = Ok (sql e).

(** The stored SQL is empty or the SQL of the newest history record. *)
Definition sql_from_history (s : session_state) : Prop :=
  generated_sql s = ""
  \/ exists e, last (query_history s) = Some e /\ generated_sql s = sql e.

Definition session_sound (lower : string -> string)
    (st : gmap loc (list string) * st_session_state) : Prop :=
  results_match_sql lower (init_session_state st.2)
  /\ Forall (entry_sound lower st.1)
            (query_history (init_session_state st.2))
  /\ sql_from_history (init_session_state st.2).

(** Execute pressed on the stored session, Generate pressed with no
    question typed, and a two-click session. *)
Definition sample_execute : widgets :=
  mkWidgets "ecommerce_db" 1%positive "" (Some Execute).


Definition sample_click_generate : event :=
  mkEvent "ecommerce_db" ["users"; "products"] "Count the users"
          (Some GenerateSQL) "2024-06-01 12:00:00" "2024-06-01 12:00:01".

Definition sample_click_execute : event :=
  mkEvent "ecommerce_db" ["users"; "products"] "Count the users"
          (Some Execute) "2024-06-01 12:00:05" "2024-06-01 12:00:06".

Definition sample_count_frame : DataFrame :=
  mkDataFrame [("total_users", [CInt 1247])].

(** * Properties *)

Lemma init_persist (s : session_state) : init_session_state (persist s) = s.
Proof. destruct s; reflexivity. Qed.

Lemma deref_truthy (h : gmap loc (list string)) (l : loc) :
  list_truthy (deref h l) = true -> l ∈ dom h.
Proof.
  unfold deref. intros Hl. apply elem_of_dom.
  destruct (h !! l) as [ts|]; [eauto | discriminate].
Qed.

Section PipelineFacts.

Variable lower : string -> string.

(** The generator is its rule table read first-match-wins, with the
    fallback template as the default. *)
Lemma mock_llm_query_first_match (q : string) (ts : list string)
    (db : string) :
  mock_llm_query lower q ts db =
  first_match_wins
    (prod_map id Ok <$> generator_rules)
    (t ← (if list_truthy ts then getitem ts 0 else Ok "table_name");
     Ok ("SELECT * FROM " +:+ t +:+ " LIMIT 10;"))
    (lower q).
Proof.
  unfold mock_llm_query; simpl.
  repeat (rewrite andb_true_r).
  reflexivity.
Qed.

(** The executor is its rule table read first-match-wins, with the
    generic sample table as the default. *)
Lemma mock_execute_query_first_match (sql_query db : string) :
  mock_execute_query lower sql_query db =
  pd_DataFrame (first_match_wins executor_rules sample_table
                                 (lower sql_query)).
Proof.
  unfold mock_execute_query; simpl.
  repeat (rewrite andb_true_r).
  repeat (match goal with |- context [if ?b then _ else _] =>
            destruct b end; try reflexivity).
Qed.

(** C2: a question whose lowercased text contains both "users" and
    "count" gets the fixed count query, whatever the selected tables,
    the database and the other keywords in the text are. *)
Theorem mock_llm_query_users_count (q : string) (ts : list string)
    (db : string) :
  str_in "users" (lower q) = true ->
  str_in "count" (lower q) = true ->
  mock_llm_query lower q ts db =
  Ok "SELECT COUNT(*) as total_users FROM users WHERE is_active = TRUE;".
Proof.
  intros Husers Hcount. unfold mock_llm_query; simpl.
  rewrite Husers, Hcount. reflexivity.
Qed.

(** C3: when the lowercased question contains none of the four keyword
    pairs, the generator returns the fallback template on the first
    selected table, or on the text "table_name" when no table is
    selected. *)
Theorem mock_llm_query_fallback (q : string) (ts : list string)
    (db : string) :
  str_in "users" (lower q) && str_in "count" (lower q) = false ->
  str_in "products" (lower q) && str_in "price" (lower q) = false ->
  str_in "orders" (lower q) && str_in "total" (lower q) = false ->
  str_in "employees" (lower q) && str_in "salary" (lower q) = false ->
  mock_llm_query lower q ts db =
  Ok ("SELECT * FROM "
      +:+ match ts with
          | t :: _ => t
          | [] => "table_name"
          end
      +:+ " LIMIT 10;").
Proof.
  intros H1 H2 H3 H4. unfold mock_llm_query; simpl.
  rewrite H1, H2, H3, H4.
  destruct ts as [|t ts']; reflexivity.
Qed.

(** C10: the generator reads only the lowercased question and the head
    of the table list; the database and the other tables are never
    read. *)
Theorem mock_llm_query_reads_only (q1 q2 : string) (ts1 ts2 : list string)
    (db1 db2 : string) :
  lower q1 = lower q2 ->
  head ts1 = head ts2 ->
  mock_llm_query lower q1 ts1 db1 = mock_llm_query lower q2 ts2 db2.
Proof.
  intros Hq Hts. unfold mock_llm_query; simpl. rewrite Hq.
  destruct ts1 as [|a l1], ts2 as [|b l2]; simpl in Hts;
    try discriminate; try reflexivity.
  injection Hts as ->. reflexivity.
Qed.

(** C5: the executor reads only the lowercased SQL text: two calls whose
    SQL strings have the same lowercased form return the same dataset,
    whatever the two database arguments are. *)
Theorem mock_execute_query_reads_only (sql1 sql2 db1 db2 : string) :
  lower sql1 = lower sql2 ->
  mock_execute_query lower sql1 db1 = mock_execute_query lower sql2 db2.
Proof.
  intros Hsql. unfold mock_execute_query; simpl. rewrite Hsql. reflexivity.
Qed.

(** C8: the executor tries its five rules first-match-wins in source
    order, and a SQL string whose lowercased form matches none of them
    gets the generic sample table: columns id 1..5, sample_column
    "Data 1".."Data 5" and value 100..500, for every database. *)
Theorem mock_execute_query_default (sql_query db : string) :
  mock_execute_query lower sql_query db =
    pd_DataFrame (first_match_wins executor_rules sample_table
                                   (lower sql_query))
  /\ (str_in "count(*)" (lower sql_query)
        && str_in "users" (lower sql_query) = false ->
      str_in "name, price" (lower sql_query)
        && str_in "products" (lower sql_query) = false ->
      str_in "sum(total_amount)" (lower sql_query)
        && str_in "orders" (lower sql_query) = false ->
      str_in "first_name, last_name, salary" (lower sql_query)
        && str_in "employees" (lower sql_query) = false ->
      str_in "users" (lower sql_query) = false ->
      mock_execute_query lower sql_query db =
      Ok (mkDataFrame
            [ ("id", [CInt 1; CInt 2; CInt 3; CInt 4; CInt 5]);
              ("sample_column",
               [CStr "Data 1"; CStr "Data 2"; CStr "Data 3"; CStr "Data 4";
                CStr "Data 5"]);
              ("value",
               [CInt 100; CInt 200; CInt 300; CInt 400; CInt 500]) ])).
Proof.
  split; [apply mock_execute_query_first_match|].
  intros H1 H2 H3 H4 H5. unfold mock_execute_query; simpl.
  rewrite H1, H2, H3, H4, H5. reflexivity.
Qed.

Lemma mock_llm_query_returns (q : string) (ts : list string) (db : string) :
  exists s, mock_llm_query lower q ts db = Ok s.
Proof.
  unfold mock_llm_query; simpl.
  repeat (match goal with |- context [if ?b && ?c then _ else _] =>
            destruct (b && c) end; [eexists; reflexivity|]).
  destruct ts as [|t ts']; eexists; reflexivity.
Qed.

Lemma mock_execute_query_returns (sql_query db : string) :
  exists df, mock_execute_query lower sql_query db = Ok df.
Proof.
  rewrite mock_execute_query_first_match. simpl.
  repeat (match goal with |- context [if ?b then _ else _] =>
            destruct b end; try (eexists; reflexivity)).
Qed.

Lemma generate_block_notices (w : widgets) (now : string)
    (h : gmap loc (list string)) (s : session_state) :
  (generate_block lower w now h s).2 = [GenerateSuccess].
Proof.
  unfold generate_block.
  destruct (mock_llm_query_returns (text_query w)
              (deref h (selected_tables w)) (selected_db w)) as [new_sql ->].
  reflexivity.
Qed.

Lemma execute_block_notices (w : widgets) (s : session_state) :
  exists rows, (execute_block lower w s).2 = [ExecuteSuccess rows].
Proof.
  unfold execute_block.
  destruct (mock_execute_query_returns (generated_sql s) (selected_db w))
    as [df ->].
  eexists; reflexivity.
Qed.

Lemma main_no_error (w : widgets) (now : string)
    (h : gmap loc (list string)) (ss : st_session_state) (n : notice) :
  n ∈ notices (main lower w now h ss) -> is_error n = false.
Proof.
  unfold main.
  pose proof (generate_block_notices w now h (init_session_state ss)) as Hg.
  destruct (generate_block lower w now h (init_session_state ss))
    as [[hg sg] ng]; simpl in Hg; subst ng.
  assert (Hn1 : forall h1 s1 n1,
            (if generate_btn w h then (hg, sg, [GenerateSuccess])
             else (h, init_session_state ss, [])) = (h1, s1, n1) ->
            forall m, m ∈ n1 -> is_error m = false).
  { intros h1 s1 n1 Heq m Hm. destruct (generate_btn w h);
      injection Heq as <- <- <-.
    - apply list_elem_of_singleton in Hm as ->. reflexivity.
    - inversion Hm. }
  destruct (if generate_btn w h then (hg, sg, [GenerateSuccess])
            else (h, init_session_state ss, [])) as [[h1 s1] n1] eqn:E1.
  specialize (Hn1 _ _ _ eq_refl).
  destruct (clear_btn w); simpl; [apply Hn1|].
  destruct (str_truthy (generated_sql s1)); simpl; [|apply Hn1].
  destruct (execute_btn w); simpl; [|apply Hn1].
  destruct (execute_block_notices w s1) as [rows Hrows].
  destruct (execute_block lower w s1) as [s2 n2]; simpl in *; subst n2.
  intros [Hm | Hm]%elem_of_app; [apply Hn1, Hm|].
  apply list_elem_of_singleton in Hm as ->. reflexivity.
Qed.

(** C4: the generator returns a string and the executor returns a data
    frame on every input, so no run of the script takes the except
    branch of either try block. *)
Theorem mocks_never_raise :
  (forall q ts db, exists s, mock_llm_query lower q ts db = Ok s)
  /\ (forall sql_query db,
        exists df, mock_execute_query lower sql_query db = Ok df)
  /\ (forall w now h ss n,
        n ∈ notices (main lower w now h ss) -> is_error n = false)
  /\ (forall w now later h ss n,
        n ∈ notices (user_action lower w now later h ss) ->
        is_error n = false).
Proof.
  split; [exact mock_llm_query_returns|].
  split; [exact mock_execute_query_returns|].
  split; [exact main_no_error|].
  intros w now later h ss n. unfold user_action.
  destruct (rerun (main lower w now h ss)); apply main_no_error.
Qed.

(** A run in which the enabled Generate button was pressed. *)
Lemma main_generate (w : widgets) (now : string)
    (h : gmap loc (list string)) (ss : st_session_state) :
  generate_btn w h = true ->
  exists new_sql,
    mock_llm_query lower (text_query w) (deref h (selected_tables w))
                   (selected_db w) = Ok new_sql
    /\ main lower w now h ss =
       mkRun (<[fresh (dom h) := deref h (selected_tables w)]> h)
             (mkSession new_sql None
                (query_history (init_session_state ss)
                 ++ [mkEntry now (text_query w) new_sql (fresh (dom h))])%list)
             [GenerateSuccess] false.
Proof.
  intros Hbtn.
  destruct (mock_llm_query_returns (text_query w)
              (deref h (selected_tables w)) (selected_db w))
    as [new_sql Hsql].
  exists new_sql. split; [exact Hsql|].
  unfold main, generate_block. rewrite Hbtn, Hsql.
  unfold generate_btn, pressed in Hbtn.
  apply andb_true_iff in Hbtn as [Hclick _].
  apply bool_decide_eq_true in Hclick.
  unfold list_copy, clear_btn, execute_btn, pressed. rewrite Hclick. simpl.
  destruct (str_truthy new_sql); reflexivity.
Qed.

(** A run in which Clear All was pressed. *)
Lemma main_clear (w : widgets) (now : string)
    (h : gmap loc (list string)) (ss : st_session_state) :
  clicked w = Some ClearAll ->
  main lower w now h ss =
  mkRun h (clear_block (init_session_state ss)) [] true.
Proof.
  intros Hclick.
  unfold main, generate_btn, clear_btn, pressed. rewrite Hclick.
  reflexivity.
Qed.

(** A run in which no button was pressed changes nothing. *)
Lemma main_no_click (w : widgets) (now : string)
    (h : gmap loc (list string)) (ss : st_session_state) :
  clicked w = None ->
  main lower w now h ss = mkRun h (init_session_state ss) [] false.
Proof.
  intros Hclick.
  unfold main, generate_btn, clear_btn, execute_btn, pressed.
  rewrite Hclick. simpl.
  destruct (str_truthy (default "" (stored_generated_sql ss)));
    reflexivity.
Qed.

Lemma user_action_no_rerun (w : widgets) (now later : string)
    (h : gmap loc (list string)) (ss : st_session_state) :
  clicked w <> Some ClearAll ->
  user_action lower w now later h ss = main lower w now h ss.
Proof.
  intros Hclick. unfold user_action.
  assert (Hr : rerun (main lower w now h ss) = false);
    [|rewrite Hr; reflexivity].
  unfold main, clear_btn, pressed.
  rewrite bool_decide_eq_false_2 by exact Hclick.
  destruct (if generate_btn w h then _ else _) as [[h1 s1] n1].
  destruct (str_truthy (generated_sql s1)); [|reflexivity].
  destruct (execute_btn w); [|reflexivity].
  destruct (execute_block lower w s1); reflexivity.
Qed.

Lemma user_action_clear (w : widgets) (now later : string)
    (h : gmap loc (list string)) (ss : st_session_state) :
  clicked w = Some ClearAll ->
  user_action lower w now later h ss =
  mkRun h (clear_block (init_session_state ss)) [] false.
Proof.
  intros Hclick. unfold user_action.
  rewrite (main_clear w now h ss Hclick). simpl.
  rewrite main_no_click by reflexivity.
  rewrite init_persist. reflexivity.
Qed.

(** C6: the clear action empties the generated SQL and the results and
    leaves the query history, and the lists its records point to, as
    they were. *)
Theorem clear_keeps_history (w : widgets) (now later : string)
    (h : gmap loc (list string)) (ss : st_session_state) :
  clicked w = Some ClearAll ->
  let r := user_action lower w now later h ss in
  generated_sql (state_of r) = ""
  /\ query_results (state_of r) = None
  /\ query_history (state_of r) = query_history (init_session_state ss)
  /\ length (query_history (state_of r))
     = length (query_history (init_session_state ss))
  /\ heap_of r = h
  /\ state_of (main lower w now h ss) = state_of r.
Proof.
  intros Hclick r. subst r.
  rewrite (user_action_clear w now later h ss Hclick).
  rewrite (main_clear w now h ss Hclick). simpl.
  repeat split; reflexivity.
Qed.

(** C7: a generate action appends exactly one record to the history;
    the record's table list is a new list object holding the selection
    of that moment, every list that existed before is untouched, and a
    later change of the selection list does not reach the record. *)
Theorem generate_appends_snapshot (w : widgets) (now later : string)
    (h : gmap loc (list string)) (ss : st_session_state) :
  generate_btn w h = true ->
  let r := user_action lower w now later h ss in
  exists new_sql c,
    mock_llm_query lower (text_query w) (deref h (selected_tables w))
                   (selected_db w) = Ok new_sql
    /\ query_history (state_of r) =
       (query_history (init_session_state ss)
        ++ [mkEntry now (text_query w) new_sql c])%list
    /\ length (query_history (state_of r))
       = S (length (query_history (init_session_state ss)))
    /\ c <> selected_tables w
    /\ (c ∉ dom h)
    /\ deref (heap_of r) c = deref h (selected_tables w)
    /\ (forall l, l <> c -> heap_of r !! l = h !! l)
    /\ (forall h2 : gmap loc (list string),
          (forall l, l <> selected_tables w -> h2 !! l = heap_of r !! l) ->
          deref h2 c = deref h (selected_tables w)).
Proof.
  intros Hbtn r. subst r.
  assert (Hclick : clicked w <> Some ClearAll).
  { unfold generate_btn, pressed in Hbtn.
    apply andb_true_iff in Hbtn as [Hc _].
    apply bool_decide_eq_true in Hc. rewrite Hc. discriminate. }
  assert (Hsel : selected_tables w ∈ dom h).
  { unfold generate_btn, generate_enabled in Hbtn.
    apply andb_true_iff in Hbtn as [_ He].
    apply andb_true_iff in He as [He _].
    apply andb_true_iff in He as [_ He].
    apply deref_truthy, He. }
  rewrite (user_action_no_rerun w now later h ss Hclick).
  destruct (main_generate w now h ss Hbtn) as (new_sql & Hsql & ->).
  pose proof (is_fresh (dom h)) as Hfresh.
  assert (Hne : fresh (dom h) <> selected_tables w)
    by (intros Heq; apply Hfresh; rewrite Heq; exact Hsel).
  exists new_sql, (fresh (dom h)). simpl.
  split; [exact Hsql|].
  split; [reflexivity|].
  split; [rewrite length_app; simpl; lia|].
  split; [exact Hne|].
  split; [exact Hfresh|].
  split; [unfold deref at 1; rewrite lookup_insert_eq; reflexivity|].
  split; [intros l Hl; apply lookup_insert_ne; congruence|].
  intros h2 Hh2. unfold deref at 1.
  rewrite (Hh2 _ Hne), lookup_insert_eq. reflexivity.
Qed.

(** C9: a generate action stores the new SQL and sets the stored
    results to None in the same run, so the state it leaves pairs no
    results with the new SQL. *)
Theorem generate_resets_results (w : widgets) (now later : string)
    (h : gmap loc (list string)) (ss : st_session_state) :
  generate_btn w h = true ->
  let r := user_action lower w now later h ss in
  exists new_sql,
    mock_llm_query lower (text_query w) (deref h (selected_tables w))
                   (selected_db w) = Ok new_sql
    /\ generated_sql (state_of r) = new_sql
    /\ query_results (state_of r) = None
    /\ notices r = [GenerateSuccess]
    /\ results_match_sql lower (state_of r).
Proof.
  intros Hbtn r. subst r.
  assert (Hclick : clicked w <> Some ClearAll).
  { unfold generate_btn, pressed in Hbtn.
    apply andb_true_iff in Hbtn as [Hc _].
    apply bool_decide_eq_true in Hc. rewrite Hc. discriminate. }
  rewrite (user_action_no_rerun w now later h ss Hclick).
  destruct (main_generate w now h ss Hbtn) as (new_sql & Hsql & ->).
  exists new_sql. simpl. repeat split; try assumption.
  intros df Hdf. discriminate.
Qed.

Lemma mock_execute_query_any_db (sql_query db1 db2 : string) :
  mock_execute_query lower sql_query db1
  = mock_execute_query lower sql_query db2.
Proof. reflexivity. Qed.

(** Every user action keeps the stored results in step with the stored
    SQL: results are only ever stored by executing the SQL that is
    stored at that moment, and both ways of replacing the SQL drop
    them. *)
Lemma user_action_results_match (w : widgets) (now later : string)
    (h : gmap loc (list string)) (ss : st_session_state) :
  results_match_sql lower (init_session_state ss) ->
  results_match_sql lower (state_of (user_action lower w now later h ss)).
Proof.
  intros Hinv.
  destruct (decide (clicked w = Some ClearAll)) as [Hclear|Hclear].
  { rewrite (user_action_clear w now later h ss Hclear). simpl.
    intros df Hdf. discriminate. }
  rewrite (user_action_no_rerun w now later h ss Hclear).
  destruct (generate_btn w h) eqn:Hbtn.
  { destruct (main_generate w now h ss Hbtn) as (new_sql & _ & ->).
    simpl. intros df Hdf. discriminate. }
  unfold main. rewrite Hbtn.
  unfold clear_btn, pressed.
  rewrite bool_decide_eq_false_2 by exact Hclear.
  destruct (str_truthy (generated_sql (init_session_state ss)));
    [|exact Hinv].
  destruct (execute_btn w); [|exact Hinv].
  unfold execute_block.
  destruct (mock_execute_query_returns
              (generated_sql (init_session_state ss)) (selected_db w))
    as [results Hres].
  rewrite Hres. simpl.
  intros df Hdf db. simpl in *. injection Hdf as <-.
  rewrite <- Hres. apply mock_execute_query_any_db.
Qed.

End PipelineFacts.

(** * The example of the specification, on ASCII text *)

(** C1 as the specification states it fails: the lowercased question
    "how many users do we have?" does not contain "count", so the first
    rule does not fire and the generator does not return the count
    query. *)
Lemma example_not_count_query :
  ~ (exists generated df,
       mock_llm_query lower_ascii "How many users do we have?" ["users"]
                      "ecommerce_db" = Ok generated
       /\ generated
          = "SELECT COUNT(*) as total_users FROM users WHERE is_active = TRUE;"
       /\ mock_execute_query lower_ascii generated "ecommerce_db" = Ok df
       /\ df_data df = [("total_users", [CInt 1247])]).
Proof.
  intros (generated & df & Hgen & Hsql & _).
  vm_compute in Hgen. rewrite Hsql in Hgen. discriminate Hgen.
Qed.

(** C1, amended: on the example input the generator returns the fallback
    query on the first selected table, and executing that SQL gives the
    users sample of five rows and five columns; the count query is what
    the generator returns once the question also contains "count", and
    executing the count query gives the one-row, one-column table
    total_users = 1247. *)
Theorem example_users_question :
  mock_llm_query lower_ascii "How many users do we have?" ["users"]
                 "ecommerce_db"
  = Ok "SELECT * FROM users LIMIT 10;"
  /\ (exists df,
        mock_execute_query lower_ascii "SELECT * FROM users LIMIT 10;"
                           "ecommerce_db" = Ok df
        /\ df_len df = 5
        /\ df_columns df
           = ["id"; "username"; "email"; "created_at"; "is_active"])
  /\ mock_llm_query lower_ascii "Count how many users we have" ["users"]
                    "ecommerce_db"
     = Ok "SELECT COUNT(*) as total_users FROM users WHERE is_active = TRUE;"
  /\ mock_execute_query lower_ascii
       "SELECT COUNT(*) as total_users FROM users WHERE is_active = TRUE;"
       "ecommerce_db"
     = Ok (mkDataFrame [("total_users", [CInt 1247])])
  /\ df_len (mkDataFrame [("total_users", [CInt 1247])]) = 1
  /\ df_columns (mkDataFrame [("total_users", [CInt 1247])])
     = ["total_users"].
Proof.
  split; [reflexivity|].
  split; [eexists; split; [reflexivity|split; reflexivity]|].
  repeat split; reflexivity.
Qed.

(** * The theorems at sample inputs *)

Lemma mock_llm_query_users_count_witness :
  str_in "users" (lower_ascii "COUNT the Users with orders total") = true
  /\ str_in "count" (lower_ascii "COUNT the Users with orders total") = true
  /\ mock_llm_query lower_ascii "COUNT the Users with orders total" []
                    "hr_system"
     = Ok "SELECT COUNT(*) as total_users FROM users WHERE is_active = TRUE;".
Proof.
  split; [reflexivity|]. split; [reflexivity|].
  apply (mock_llm_query_users_count lower_ascii); reflexivity.
Defined.

Lemma mock_llm_query_fallback_witness :
  mock_llm_query lower_ascii "Show all departments" ["departments"; "employees"]
                 "hr_system"
  = Ok "SELECT * FROM departments LIMIT 10;"
  /\ mock_llm_query lower_ascii "Show all departments" [] "hr_system"
     = Ok "SELECT * FROM table_name LIMIT 10;".
Proof.
  split.
  - apply (mock_llm_query_fallback lower_ascii "Show all departments"
             ["departments"; "employees"] "hr_system"); reflexivity.
  - apply (mock_llm_query_fallback lower_ascii "Show all departments"
             [] "hr_system"); reflexivity.
Defined.

Lemma mock_llm_query_reads_only_witness :
  mock_llm_query lower_ascii "Show ORDERS" ["orders"; "users"] "ecommerce_db"
  = mock_llm_query lower_ascii "show orders" ["orders"] "hr_system".
Proof.
  apply (mock_llm_query_reads_only lower_ascii); reflexivity.
Defined.

Lemma mock_execute_query_reads_only_witness :
  mock_execute_query lower_ascii "SELECT * FROM USERS" "ecommerce_db"
  = mock_execute_query lower_ascii "select * from users" "hr_system".
Proof.
  apply (mock_execute_query_reads_only lower_ascii); reflexivity.
Defined.

Lemma mock_execute_query_default_witness :
  mock_execute_query lower_ascii "SELECT * FROM orders LIMIT 10;" "hr_system"
  = Ok (mkDataFrame sample_table).
Proof.
  apply (proj2 (mock_execute_query_default lower_ascii
                  "SELECT * FROM orders LIMIT 10;" "hr_system"));
    reflexivity.
Defined.

Lemma clear_keeps_history_witness :
  clicked sample_clear = Some ClearAll
  /\ (let r := user_action lower_ascii sample_clear "2024-06-01 12:05:00"
                 "2024-06-01 12:05:01" sample_stored_heap sample_stored in
      generated_sql (state_of r) = ""
      /\ query_results (state_of r) = None
      /\ query_history (state_of r)
         = query_history (init_session_state sample_stored)
      /\ length (query_history (state_of r))
         = length (query_history (init_session_state sample_stored))
      /\ heap_of r = sample_stored_heap
      /\ state_of (main lower_ascii sample_clear "2024-06-01 12:05:00"
                        sample_stored_heap sample_stored) = state_of r).
Proof.
  split; [reflexivity|].
  apply (clear_keeps_history lower_ascii sample_clear). reflexivity.
Defined.

Lemma generate_appends_snapshot_witness :
  generate_btn sample_generate sample_heap = true
  /\ (let r := user_action lower_ascii sample_generate "2024-06-01 12:00:00"
                 "2024-06-01 12:00:01" sample_heap (mkStored None None None) in
      exists new_sql c,
        mock_llm_query lower_ascii (text_query sample_generate)
          (deref sample_heap (selected_tables sample_generate))
          (selected_db sample_generate) = Ok new_sql
        /\ query_history (state_of r) =
           (query_history (init_session_state (mkStored None None None))
            ++ [mkEntry "2024-06-01 12:00:00" (text_query sample_generate)
                        new_sql c])%list
        /\ length (query_history (state_of r))
           = S (length (query_history
                          (init_session_state (mkStored None None None))))
        /\ c <> selected_tables sample_generate
        /\ (c ∉ dom sample_heap)
        /\ deref (heap_of r) c
           = deref sample_heap (selected_tables sample_generate)
        /\ (forall l, l <> c -> heap_of r !! l = sample_heap !! l)
        /\ (forall h2 : gmap loc (list string),
              (forall l, l <> selected_tables sample_generate ->
                         h2 !! l = heap_of r !! l) ->
              deref h2 c
              = deref sample_heap (selected_tables sample_generate))).
Proof.
  split; [vm_compute; reflexivity|].
  apply (generate_appends_snapshot lower_ascii sample_generate).
  vm_compute; reflexivity.
Defined.

Lemma generate_resets_results_witness :
  generate_btn sample_generate sample_stored_heap = true
  /\ (let r := user_action lower_ascii sample_generate "2024-06-01 12:10:00"
                 "2024-06-01 12:10:01" sample_stored_heap sample_stored in
      exists new_sql,
        mock_llm_query lower_ascii (text_query sample_generate)
          (deref sample_stored_heap (selected_tables sample_generate))
          (selected_db sample_generate) = Ok new_sql
        /\ generated_sql (state_of r) = new_sql
        /\ query_results (state_of r) = None
        /\ notices r = [GenerateSuccess]
        /\ results_match_sql lower_ascii (state_of r)).
Proof.
  split; [vm_compute; reflexivity|].
  apply (generate_resets_results lower_ascii sample_generate).
  vm_compute; reflexivity.
Defined.

(** * Further properties of the pipeline *)

Section PipelineMore.

Variable lower : string -> string.

(** X1: whatever the question, the tables and the database, the SQL the
    generator returns is a non-empty string, so the SQL panel and its
    Execute button are drawn after every generation. *)
Theorem mock_llm_query_nonempty (q : string) (ts : list string)
    (db new_sql : string) :
  mock_llm_query lower q ts db = Ok new_sql -> str_truthy new_sql = true.
Proof.
  unfold mock_llm_query; simpl.
  repeat (match goal with |- context [if ?b && ?c then _ else _] =>
            destruct (b && c) end;
          [intros [= <-]; reflexivity|]).
  destruct ts as [|t ts']; simpl; intros [= <-]; reflexivity.
Qed.

Lemma executor_tables_shape (text : string) (d : list (string * list cell)) :
  d = first_match_wins executor_rules sample_table text ->
  pd_DataFrame d = Ok (mkDataFrame d)
  /\ (1 <= df_len (mkDataFrame d))%nat
  /\ Forall (fun kv => length kv.2 = df_len (mkDataFrame d)) d
  /\ numeric_cols (mkDataFrame d) <> [].
Proof.
  intros ->. simpl.
  repeat (match goal with |- context [if ?b then _ else _] =>
            destruct b end;
          try (split; [reflexivity|];
               split; [vm_compute; lia|];
               split; [repeat constructor|];
               vm_compute; discriminate)).
Qed.

(** X2: every data frame the executor returns has at least one row, has
    all its columns of that same length, and has at least one numeric
    column; so the results panel always shows the insights with a numeric
    summary and never the note that no numeric column was found. *)
Theorem mock_execute_query_frame (sql_query db : string) (df : DataFrame)
    (s : session_state) :
  mock_execute_query lower sql_query db = Ok df ->
  query_results s = Some df ->
  (1 <= df_len df)%nat
  /\ Forall (fun kv => length kv.2 = df_len df) (df_data df)
  /\ numeric_cols df <> []
  /\ render_results s
     = Some (mkPanel (df_len df) (length (df_columns df))
                     (Some (NumericSummary (numeric_cols df)))).
Proof.
  rewrite mock_execute_query_first_match.
  destruct (executor_tables_shape (lower sql_query) _ eq_refl)
    as (Hok & Hlen & Hcols & Hnum).
  rewrite Hok. intros [= <-] Hres.
  split; [exact Hlen|]. split; [exact Hcols|]. split; [exact Hnum|].
  unfold render_results. rewrite Hres.
  destruct (df_len _) as [|n] eqn:Hn; [lia|]. simpl.
  destruct (numeric_cols _) as [|c cs] eqn:Hc; [congruence|]. reflexivity.
Qed.

End PipelineMore.

(** * Runs of the script and whole sessions *)

Lemma str_truthy_false (s : string) : str_truthy s = false -> s = "".
Proof. destruct s; [reflexivity | discriminate]. Qed.

Lemma deref_insert_eq (h : gmap loc (list string)) (l : loc)
    (ts : list string) :
  deref (<[l := ts]> h) l = ts.
Proof. unfold deref. rewrite lookup_insert_eq. reflexivity. Qed.

Lemma deref_insert_ne (h : gmap loc (list string)) (l l' : loc)
    (ts : list string) :
  l <> l' -> deref (<[l := ts]> h) l' = deref h l'.
Proof. intros Hne. unfold deref. rewrite lookup_insert_ne; done. Qed.

Section SessionMore.

Variable lower : string -> string.

Lemma generated_sql_truthy (q : string) (ts : list string)
    (db new_sql : string) :
  mock_llm_query lower q ts db = Ok new_sql -> str_truthy new_sql = true.
Proof.
  unfold mock_llm_query; simpl.
  repeat (match goal with |- context [if ?b && ?c then _ else _] =>
            destruct (b && c) end;
          [intros [= <-]; reflexivity|]).
  destruct ts as [|t ts']; simpl; intros [= <-]; reflexivity.
Qed.

(** A run in which neither Generate nor Clear All takes effect. *)
Lemma main_idle (w : widgets) (now : string) (h : gmap loc (list string))
    (ss : st_session_state) :
  generate_btn w h = false ->
  clicked w <> Some ClearAll ->
  main lower w now h ss =
  if str_truthy (generated_sql (init_session_state ss)) && execute_btn w
  then mkRun h (execute_block lower w (init_session_state ss)).1
             (execute_block lower w (init_session_state ss)).2 false
  else mkRun h (init_session_state ss) [] false.
Proof.
  intros Hgen Hclear. unfold main. rewrite Hgen.
  unfold clear_btn, pressed.
  rewrite bool_decide_eq_false_2 by exact Hclear.
  destruct (str_truthy (generated_sql (init_session_state ss)));
    [|reflexivity].
  destruct (execute_btn w); [|reflexivity]. simpl.
  destruct (execute_block lower w (init_session_state ss)); reflexivity.
Qed.

Lemma execute_stores_results_aux (w : widgets) (now later : string)
    (h : gmap loc (list string)) (ss : st_session_state) :
  clicked w = Some Execute ->
  str_truthy (generated_sql (init_session_state ss)) = true ->
  exists df,
    mock_execute_query lower (generated_sql (init_session_state ss))
                       (selected_db w) = Ok df
    /\ init_session_state
         (persist (state_of (user_action lower w now later h ss)))
       = mkSession (generated_sql (init_session_state ss)) (Some df)
                   (query_history (init_session_state ss)).
Proof.
  intros Hclick Hsql.
  assert (Hclear : clicked w <> Some ClearAll) by (rewrite Hclick; discriminate).
  assert (Hgen : generate_btn w h = false).
  { unfold generate_btn, pressed. rewrite Hclick. reflexivity. }
  rewrite (user_action_no_rerun lower w now later h ss Hclear).
  rewrite (main_idle w now h ss Hgen Hclear), Hsql.
  unfold execute_btn, pressed. rewrite Hclick.
  rewrite bool_decide_eq_true_2 by reflexivity.
  unfold execute_block.
  destruct (mock_execute_query_returns lower
              (generated_sql (init_session_state ss)) (selected_db w))
    as [df Hdf].
  exists df. split; [exact Hdf|]. rewrite Hdf. reflexivity.
Qed.

(** X3: an Execute click on stored SQL stores the executor's data frame
    for that SQL and reports its row count; the SQL, the history and the
    heap are left as they were. *)
Theorem execute_stores_results (w : widgets) (now later : string)
    (h : gmap loc (list string)) (ss : st_session_state) :
  clicked w = Some Execute ->
  str_truthy (generated_sql (init_session_state ss)) = true ->
  let s := init_session_state ss in
  let r := user_action lower w now later h ss in
  exists df,
    mock_execute_query lower (generated_sql s) (selected_db w) = Ok df
    /\ state_of r = mkSession (generated_sql s) (Some df) (query_history s)
    /\ heap_of r = h
    /\ notices r = [ExecuteSuccess (df_len df)]
    /\ rerun r = false.
Proof.
  intros Hclick Hsql s r. subst s r.
  assert (Hclear : clicked w <> Some ClearAll) by (rewrite Hclick; discriminate).
  assert (Hgen : generate_btn w h = false).
  { unfold generate_btn, pressed. rewrite Hclick. reflexivity. }
  rewrite (user_action_no_rerun lower w now later h ss Hclear).
  rewrite (main_idle w now h ss Hgen Hclear), Hsql.
  unfold execute_btn, pressed. rewrite Hclick.
  rewrite bool_decide_eq_true_2 by reflexivity.
  unfold execute_block.
  destruct (mock_execute_query_returns lower
              (generated_sql (init_session_state ss)) (selected_db w))
    as [df Hdf].
  exists df. split; [exact Hdf|]. rewrite Hdf.
  repeat split; reflexivity.
Qed.


(** X5: no user action ever removes or rewrites a history record, adds
    more than one, or touches a list object that already exists. *)
Theorem user_action_monotone (w : widgets) (now later : string)
    (h : gmap loc (list string)) (ss : st_session_state) :
  let s := init_session_state ss in
  let r := user_action lower w now later h ss in
  query_history s `prefix_of` query_history (state_of r)
  /\ (length (query_history (state_of r)) <= S (length (query_history s)))%nat
  /\ (forall l, l ∈ dom h -> heap_of r !! l = h !! l).
Proof.
  intros s r. subst s r.
  destruct (decide (clicked w = Some ClearAll)) as [Hclear|Hclear].
  { rewrite (user_action_clear lower w now later h ss Hclear). simpl.
    split; [reflexivity|]. split; [lia|]. reflexivity. }
  rewrite (user_action_no_rerun lower w now later h ss Hclear).
  destruct (generate_btn w h) eqn:Hgen.
  - destruct (main_generate lower w now h ss Hgen) as (new_sql & _ & ->).
    simpl. split; [apply prefix_app_r; reflexivity|].
    split; [rewrite length_app; simpl; lia|].
    intros l Hl. apply lookup_insert_ne. intros <-.
    exact (is_fresh (dom h) Hl).
  - rewrite (main_idle w now h ss Hgen Hclear).
    destruct (str_truthy _ && execute_btn w); simpl.
    + unfold execute_block.
      destruct (mock_execute_query lower _ _); simpl;
        (split; [reflexivity|]; split; [lia|]; reflexivity).
    + split; [reflexivity|]. split; [lia|]. reflexivity.
Qed.

(** The Generate button fires in the run of an event exactly when the
    event is an accepted Generate click. *)
Lemma generate_btn_accepted (e : event) (h0 : gmap loc (list string)) :
  generate_btn
    (mkWidgets (ev_db e) (fresh (dom h0)) (ev_text e) (ev_click e))
    (<[fresh (dom h0) := ev_tables e]> h0)
  = accepted e.
Proof.
  unfold generate_btn, generate_enabled, pressed, accepted. simpl.
  rewrite deref_insert_eq. reflexivity.
Qed.

Lemma session_step_accepted (e : event) (h0 : gmap loc (list string))
    (ss : st_session_state) :
  accepted e = true ->
  let h := <[fresh (dom h0) := ev_tables e]> h0 in
  exists new_sql,
    mock_llm_query lower (ev_text e) (ev_tables e) (ev_db e) = Ok new_sql
    /\ session_step lower e (h0, ss) =
       (<[fresh (dom h) := ev_tables e]> h,
        persist (mkSession new_sql None
                   (query_history (init_session_state ss)
                    ++ [mkEntry (ev_now e) (ev_text e) new_sql
                                (fresh (dom h))])%list)).
Proof.
  intros Hacc h. subst h. unfold session_step. simpl.
  set (sel := fresh (dom h0)). set (h := <[sel := ev_tables e]> h0).
  set (w := mkWidgets (ev_db e) sel (ev_text e) (ev_click e)).
  assert (Hgen : generate_btn w h = true)
    by (subst w h sel; rewrite generate_btn_accepted; exact Hacc).
  assert (Hclear : clicked w <> Some ClearAll).
  { unfold accepted in Hacc. apply andb_true_iff in Hacc as [Hc _].
    apply bool_decide_eq_true in Hc. simpl. rewrite Hc. discriminate. }
  rewrite (user_action_no_rerun lower w (ev_now e) (ev_later e) h ss Hclear).
  destruct (main_generate lower w (ev_now e) h ss Hgen)
    as (new_sql & Hsql & ->).
  simpl in Hsql. subst h. rewrite deref_insert_eq in Hsql.
  exists new_sql. split; [exact Hsql|]. simpl.
  rewrite deref_insert_eq. reflexivity.
Qed.

Lemma session_step_clear (e : event) (h0 : gmap loc (list string))
    (ss : st_session_state) :
  ev_click e = Some ClearAll ->
  session_step lower e (h0, ss) =
  (<[fresh (dom h0) := ev_tables e]> h0,
   persist (clear_block (init_session_state ss))).
Proof.
  intros Hclick. unfold session_step. simpl.
  rewrite user_action_clear by exact Hclick. reflexivity.
Qed.

Lemma session_step_idle (e : event) (h0 : gmap loc (list string))
    (ss : st_session_state) :
  accepted e = false ->
  ev_click e <> Some ClearAll ->
  let s := init_session_state ss in
  exists results,
    session_step lower e (h0, ss) =
      (<[fresh (dom h0) := ev_tables e]> h0,
       persist (mkSession (generated_sql s) results (query_history s)))
    /\ (results = query_results s
        \/ exists df,
             results = Some df
             /\ forall db,
                  mock_execute_query lower (generated_sql s) db = Ok df).
Proof.
  intros Hacc Hclear s. subst s. unfold session_step. simpl.
  set (sel := fresh (dom h0)). set (h := <[sel := ev_tables e]> h0).
  set (w := mkWidgets (ev_db e) sel (ev_text e) (ev_click e)).
  assert (Hgen : generate_btn w h = false)
    by (subst w h sel; rewrite generate_btn_accepted; exact Hacc).
  rewrite (user_action_no_rerun lower w (ev_now e) (ev_later e) h ss Hclear).
  rewrite (main_idle w (ev_now e) h ss Hgen Hclear).
  destruct (str_truthy _ && execute_btn w).
  - unfold execute_block.
    destruct (mock_execute_query_returns lower
                (generated_sql (init_session_state ss)) (selected_db w))
      as [df Hdf].
    rewrite Hdf. exists (Some df). split; [reflexivity|].
    right. exists df. split; [reflexivity|].
    intros db. rewrite <- Hdf. reflexivity.
  - exists (query_results (init_session_state ss)).
    split; [|left; reflexivity].
    reflexivity.
Qed.

Lemma entry_sound_extend (h h' : gmap loc (list string))
    (e : history_entry) :
  (forall l, l ∈ dom h -> h' !! l = h !! l) ->
  entry_sound lower h e -> entry_sound lower h' e.
Proof.
  intros Hext (Hdom & Hts & Hq & Hsql).
  assert (Hd : deref h' (tables e) = deref h (tables e))
    by (unfold deref; rewrite (Hext _ Hdom); reflexivity).
  split.
  { apply elem_of_dom. rewrite (Hext _ Hdom). apply elem_of_dom, Hdom. }
  rewrite Hd. repeat split; assumption.
Qed.

Lemma insert_fresh_keeps (h : gmap loc (list string)) (ts : list string)
    (l : loc) :
  l ∈ dom h -> <[fresh (dom h) := ts]> h !! l = h !! l.
Proof.
  intros Hl. apply lookup_insert_ne. intros <-. exact (is_fresh (dom h) Hl).
Qed.

(** One user action keeps a session sound. *)
Lemma session_step_sound (e : event)
    (st : gmap loc (list string) * st_session_state) :
  session_sound lower st -> session_sound lower (session_step lower e st).
Proof.
  destruct st as [h0 ss]. intros (Hres & Hhist & Hsql). simpl in *.
  set (h := <[fresh (dom h0) := ev_tables e]> h0).
  assert (Hh : Forall (entry_sound lower h)
                 (query_history (init_session_state ss))).
  { eapply Forall_impl; [exact Hhist|]. intros x Hx.
    eapply entry_sound_extend; [|exact Hx].
    intros l Hl. apply insert_fresh_keeps, Hl. }
  destruct (decide (ev_click e = Some ClearAll)) as [Hclear|Hclear].
  { rewrite (session_step_clear e h0 ss Hclear).
    unfold session_sound. simpl. rewrite init_persist. simpl.
    split; [intros df Hdf; discriminate|].
    split; [exact Hh|]. left; reflexivity. }
  destruct (accepted e) eqn:Hacc.
  - destruct (session_step_accepted e h0 ss Hacc) as (new_sql & Hgen & ->).
    fold h. unfold session_sound. simpl. rewrite init_persist. simpl.
    split; [intros df Hdf; discriminate|].
    split.
    + apply Forall_app. split.
      * eapply Forall_impl; [exact Hh|]. intros x Hx.
        eapply entry_sound_extend; [|exact Hx].
        intros l Hl. apply insert_fresh_keeps, Hl.
      * constructor; [|constructor].
        unfold accepted in Hacc.
        apply andb_true_iff in Hacc as [_ Hacc].
        apply andb_true_iff in Hacc as [Hacc _].
        apply andb_true_iff in Hacc as [Htext Htabs].
        unfold entry_sound. simpl. rewrite deref_insert_eq.
        split; [apply elem_of_dom; rewrite lookup_insert_eq; eauto|].
        repeat split; try assumption.
        intros db. exact Hgen.
    + right. eexists. split; [apply last_snoc|]. reflexivity.
  - destruct (session_step_idle e h0 ss Hacc Hclear)
      as (results & -> & Hresults).
    fold h. unfold session_sound. simpl. rewrite init_persist. simpl.
    split.
    + intros df Hdf db. simpl in *.
      destruct Hresults as [-> | (df' & -> & Hdf')].
      * apply Hres, Hdf.
      * injection Hdf as <-. apply Hdf'.
    + split; [exact Hh|]. exact Hsql.
Qed.

(** X6: in every state a session can reach, the stored results (if any)
    are what the executor returns for the stored SQL, every history
    record holds the SQL the generator returns for its question and its
    table list, a non-empty list object of the heap, and the stored SQL
    is empty or the SQL of the newest record. *)
Theorem session_run_sound (events : list event) :
  session_sound lower (session_run lower events new_session).
Proof.
  unfold session_run.
  assert (Hnew : session_sound lower new_session).
  { unfold session_sound, new_session. simpl.
    split; [intros df Hdf; discriminate|].
    split; [constructor|]. left; reflexivity. }
  revert Hnew. generalize new_session.
  induction events as [|e events IH]; intros st Hst; simpl; [exact Hst|].
  apply IH, session_step_sound, Hst.
Qed.

Lemma session_step_history (e : event)
    (st : gmap loc (list string) * st_session_state) :
  (fun r => (timestamp r, question r))
    <$> query_history (init_session_state (session_step lower e st).2)
  = (((fun r => (timestamp r, question r))
        <$> query_history (init_session_state st.2))
     ++ (if accepted e then [(ev_now e, ev_text e)] else []))%list.
Proof.
  destruct st as [h0 ss].
  destruct (decide (ev_click e = Some ClearAll)) as [Hclear|Hclear].
  { rewrite (session_step_clear e h0 ss Hclear). simpl.
    unfold accepted. rewrite Hclear. simpl.
    rewrite app_nil_r. reflexivity. }
  destruct (accepted e) eqn:Hacc.
  - destruct (session_step_accepted e h0 ss Hacc) as (new_sql & _ & ->).
    simpl. rewrite fmap_app. reflexivity.
  - destruct (session_step_idle e h0 ss Hacc Hclear) as (results & -> & _).
    simpl. rewrite app_nil_r. reflexivity.
Qed.

Lemma session_run_history (events : list event)
    (st : gmap loc (list string) * st_session_state) :
  (fun r => (timestamp r, question r))
    <$> query_history (init_session_state (session_run lower events st).2)
  = (((fun r => (timestamp r, question r))
        <$> query_history (init_session_state st.2))
     ++ ((fun e => (ev_now e, ev_text e))
           <$> List.filter accepted events))%list.
Proof.
  revert st. induction events as [|e events IH]; intros st.
  - simpl. rewrite app_nil_r. reflexivity.
  - change (session_run lower (e :: events) st)
      with (session_run lower events (session_step lower e st)).
    rewrite IH, session_step_history, <- app_assoc. f_equal.
    cbn [List.filter]. destruct (accepted e); reflexivity.
Qed.

(** X7: the history of a session lists, in order, exactly the accepted
    Generate clicks (pressed with a question, a table and a database),
    each with the time and the question of its click; no other action
    adds, drops or reorders a record. *)
Theorem session_history_trace (events : list event) :
  (fun r => (timestamp r, question r))
    <$> query_history
          (init_session_state (session_run lower events new_session).2)
  = (fun e => (ev_now e, ev_text e)) <$> List.filter accepted events.
Proof.
  rewrite session_run_history. reflexivity.
Qed.

(** X8: an accepted Generate click followed by an Execute click leaves
    the generator's SQL for the question stored together with the
    executor's data frame for that SQL, and one new history record. *)
Theorem generate_then_execute (e1 e2 : event)
    (st : gmap loc (list string) * st_session_state) :
  accepted e1 = true ->
  ev_click e2 = Some Execute ->
  let s := init_session_state st.2 in
  let s2 := init_session_state (session_run lower [e1; e2] st).2 in
  exists new_sql df c,
    mock_llm_query lower (ev_text e1) (ev_tables e1) (ev_db e1) = Ok new_sql
    /\ mock_execute_query lower new_sql (ev_db e2) = Ok df
    /\ s2 = mkSession new_sql (Some df)
               (query_history s
                ++ [mkEntry (ev_now e1) (ev_text e1) new_sql c])%list.
Proof.
  intros Hacc Hexec s s2. subst s s2. destruct st as [h0 ss].
  change (session_run lower [e1; e2] (h0, ss))
    with (session_step lower e2 (session_step lower e1 (h0, ss))).
  destruct (session_step_accepted e1 h0 ss Hacc) as (new_sql & Hgen & ->).
  pose proof (generated_sql_truthy _ _ _ _ Hgen) as Htruthy.
  unfold session_step. cbn [fst snd].
  match goal with |- context [user_action lower ?w ?n ?l ?h ?p] =>
    destruct (execute_stores_results_aux w n l h p) as (df & Hdf & Hst)
  end; [exact Hexec | rewrite init_persist; exact Htruthy |].
  rewrite init_persist in Hdf. simpl in Hdf.
  exists new_sql, df. eexists. split; [exact Hgen|].
  split; [exact Hdf|]. rewrite Hst, init_persist. reflexivity.
Qed.

End SessionMore.

(** * The history section, the DDL section and the catalog *)

(** X9: the history section shows the newest records first, at most
    five of them, and the number printed before a record is its position
    in the history counted from one. *)
Theorem history_view_spec (history : list history_entry) :
  length (history_view history) = min 5 (length history)
  /\ forall i n e,
       history_view history !! i = Some (n, e) ->
       n = (Z.of_nat (length history) - Z.of_nat i)%Z
       /\ (Z.of_nat (length history) - 4 <= n <= Z.of_nat (length history))%Z
       /\ (1 <= n)%Z
       /\ history !! Z.to_nat (n - 1) = Some e.
Proof.
  unfold history_view, py_last. split.
  { rewrite length_imap, length_reverse, length_drop. lia. }
  intros i n e Hi.
  rewrite list_lookup_imap in Hi.
  destruct (reverse (drop (length history - 5) history) !! i)
    as [e'|] eqn:Hrev; [|discriminate].
  injection Hi as <- <-.
  pose proof (lookup_lt_Some _ _ _ Hrev) as Hlt.
  rewrite length_reverse, length_drop in Hlt.
  rewrite reverse_lookup in Hrev
    by (rewrite length_drop; exact Hlt).
  rewrite lookup_drop, length_drop in Hrev.
  split; [reflexivity|]. split; [lia|]. split; [lia|].
  rewrite <- Hrev. f_equal. lia.
Qed.

Lemma columns_df_built (cols : list string) :
  exists df, columns_df cols = Ok df /\ df_len df = length cols.
Proof.
  unfold columns_df, pd_DataFrame, py_range.
  assert (Hlen : length (CInt <$> seqZ 1 (Z.of_nat (length cols) + 1 - 1))
                 = length (CStr <$> cols)).
  { rewrite !length_fmap, length_seqZ. lia. }
  cbn [forallb snd]. rewrite Hlen, Nat.eqb_refl. cbn [andb].
  eexists. split; [reflexivity|].
  unfold df_len; simpl. apply length_fmap.
Qed.

(** X10: the frame of a table's columns is built without error for
    every column list: one row per column, the names in order, and the
    index counting from one. *)
Theorem columns_df_shape (cols : list string) :
  exists df,
    columns_df cols = Ok df
    /\ df_len df = length cols
    /\ df_columns df = ["Column"; "Index"]
    /\ forall i c,
         cols !! i = Some c ->
         exists column index,
           df_data df = [("Column", column); ("Index", index)]
           /\ column !! i = Some (CStr c)
           /\ index !! i = Some (CInt (Z.of_nat i + 1)).
Proof.
  unfold columns_df, pd_DataFrame, py_range.
  assert (Hlen : length (CInt <$> seqZ 1 (Z.of_nat (length cols) + 1 - 1))
                 = length (CStr <$> cols)).
  { rewrite !length_fmap, length_seqZ. lia. }
  cbn [forallb snd]. rewrite Hlen, Nat.eqb_refl. cbn [andb].
  eexists. split; [reflexivity|].
  split; [unfold df_len; simpl; apply length_fmap|].
  split; [reflexivity|].
  intros i c Hc. do 2 eexists. split; [reflexivity|].
  split.
  - rewrite list_lookup_fmap, Hc. reflexivity.
  - rewrite list_lookup_fmap, lookup_seqZ_lt.
    + simpl. do 2 f_equal. lia.
    + apply lookup_lt_Some in Hc. lia.
Qed.

Lemma dict_get_Some {V} (d : list (string * V)) (k : string) (v : V) :
  dict_get d k = Some v -> (k, v) ∈ d.
Proof.
  induction d as [|[k' v'] d IH]; simpl; [discriminate|].
  destruct (String.eqb_spec k' k) as [->|Hne].
  - intros [= ->]. left.
  - intros H. right. apply IH, H.
Qed.

Lemma dict_get_key {V} (d : list (string * V)) (k : string) :
  k ∈ d.*1 -> is_Some (dict_get d k).
Proof.
  induction d as [|[k' v'] d IH]; simpl; [intros H; inversion H|].
  destruct (String.eqb_spec k' k) as [->|Hne]; [eauto|].
  intros H. apply elem_of_cons in H as [->|H]; [congruence|].
  apply IH, H.
Qed.

Lemma table_tab_known (db table : string)
    (tbls : list (string * table_schema)) (schema : table_schema) :
  dict_get MOCK_DATABASES db = Some tbls ->
  dict_get tbls table = Some schema ->
  exists df,
    table_tab db table = inr (ddl schema, df)
    /\ df_len df = length (columns schema).
Proof.
  intros Hdb Ht. unfold table_tab, lookup_key. rewrite Hdb, Ht.
  destruct (columns_df_built (columns schema)) as (df & -> & Hlen).
  exists df. split; [reflexivity | exact Hlen].
Qed.

(** X11: for a database of the catalog and a selection made of its
    tables, the DDL section is drawn without error: one tab per selected
    table, in order, with the DDL of that table and a column frame of one
    row per column. *)
Theorem table_tabs_render (db : string)
    (tbls : list (string * table_schema)) (selection : list string) :
  dict_get MOCK_DATABASES db = Some tbls ->
  (forall t, t ∈ selection -> t ∈ tbls.*1) ->
  exists tabs,
    table_tabs db selection = inr tabs
    /\ Forall2 (fun t tab =>
                  exists schema,
                    dict_get tbls t = Some schema
                    /\ tab.1 = ddl schema
                    /\ df_len tab.2 = length (columns schema))
               selection tabs.
Proof.
  intros Hdb. induction selection as [|t rest IH]; intros Hsel.
  { exists []. split; [reflexivity | constructor]. }
  destruct (dict_get_key tbls t) as [schema Hschema].
  { apply Hsel. left. }
  destruct (table_tab_known db t tbls schema Hdb Hschema) as (df & Htab & Hlen).
  destruct IH as (tabs & Htabs & Hall).
  { intros t' Ht'. apply Hsel. right. exact Ht'. }
  exists ((ddl schema, df) :: tabs). simpl. rewrite Htab, Htabs.
  split; [reflexivity|].
  constructor; [|exact Hall].
  exists schema. repeat split; assumption.
Qed.

(** X12: the DDL section fails with the KeyError of the first selected
    table that the selected database does not have. *)
Theorem table_tabs_missing (db : string)
    (tbls : list (string * table_schema)) (before after : list string)
    (t : string) :
  dict_get MOCK_DATABASES db = Some tbls ->
  (forall t', t' ∈ before -> t' ∈ tbls.*1) ->
  dict_get tbls t = None ->
  table_tabs db (before ++ t :: after) = inl (KeyError t).
Proof.
  intros Hdb Hbefore Ht. induction before as [|b before IH]; simpl.
  - unfold table_tab, lookup_key. rewrite Hdb, Ht. reflexivity.
  - destruct (dict_get_key tbls b) as [schema Hschema].
    { apply Hbefore. left. }
    destruct (table_tab_known db b tbls schema Hdb Hschema) as (df & -> & _).
    rewrite IH; [reflexivity|].
    intros t' Ht'. apply Hbefore. right. exact Ht'.
Qed.

Ltac list_cases H :=
  repeat (apply elem_of_cons in H as [H|H]);
  [..| apply elem_of_nil in H; destruct H].

(** X13: for each database the select box offers, the table multiselect
    starts with the first two tables of that database selected, and the
    DDL section is drawn for that selection without error. *)
Theorem default_selection_renders (db : string) :
  db ∈ database_options ->
  exists available tabs,
    available_tables db = inr available
    /\ default_tables available = take 2 available
    /\ length (default_tables available) = 2
    /\ (forall t, t ∈ default_tables available -> t ∈ available)
    /\ table_tabs db (default_tables available) = inr tabs
    /\ length tabs = 2.
Proof.
  intros Hdb. unfold database_options in Hdb. simpl in Hdb.
  list_cases Hdb; subst db.
  - exists ["users"; "products"; "orders"; "categories"]. eexists.
    split; [reflexivity|]. split; [reflexivity|]. split; [reflexivity|].
    split; [intros t Ht; simpl in Ht; list_cases Ht; subst t;
            repeat constructor|].
    split; [vm_compute; reflexivity | reflexivity].
  - exists ["employees"; "departments"]. eexists.
    split; [reflexivity|]. split; [reflexivity|]. split; [reflexivity|].
    split; [intros t Ht; exact Ht|].
    split; [vm_compute; reflexivity | reflexivity].
Qed.

(** X14: in the catalog every DDL text opens with CREATE TABLE and the
    name of its table, names every column of the table's column list, and
    no column list repeats a name. *)
Theorem catalog_consistent (db table : string)
    (tbls : list (string * table_schema)) (schema : table_schema) :
  dict_get MOCK_DATABASES db = Some tbls ->
  dict_get tbls table = Some schema ->
  String.prefix ("CREATE TABLE " +:+ table +:+ " (") (ddl schema) = true
  /\ Forall (fun c => str_in c (ddl schema) = true) (columns schema)
  /\ NoDup (columns schema).
Proof.
  intros Hdb Ht.
  apply dict_get_Some in Hdb. unfold MOCK_DATABASES in Hdb.
  list_cases Hdb; injection Hdb as -> ->;
    apply dict_get_Some in Ht; list_cases Ht; injection Ht as -> ->;
    (split; [vm_compute; reflexivity|];
     split; [simpl; repeat constructor|];
     simpl; apply (bool_decide_unpack _); vm_compute; exact I).
Qed.

(** X15: on ASCII text the two rule tables line up: the SQL of the
    generator's n-th rule is answered by the executor's n-th rule, with
    that rule's data, for every database. *)
Theorem keyword_sql_hits_same_rule (i : nat) (keys : list string)
    (rule_sql db : string) :
  generator_rules !! i = Some (keys, rule_sql) ->
  exists executor_keys data,
    executor_rules !! i = Some (executor_keys, data)
    /\ Forall (fun k => str_in k (lower_ascii rule_sql) = true) executor_keys
    /\ mock_execute_query lower_ascii rule_sql db = Ok (mkDataFrame data).
Proof.
  intros Hrule.
  do 4 (destruct i as [|i];
        [injection Hrule as <- <-; do 2 eexists;
         split; [reflexivity|]; split; [repeat constructor|];
         vm_compute; reflexivity|]).
  discriminate Hrule.
Qed.

(** X16: on ASCII text, when no keyword pair is in the question and the
    first selected table is a table of the catalog, executing the
    fallback SQL never returns that table's columns: it returns the
    generic sample table, or for the table users the users sample, which
    lacks the column last_login. *)
Theorem fallback_ignores_schema (q : string) (t : string)
    (rest : list string) (db db' dbname : string)
    (tbls : list (string * table_schema)) (schema : table_schema) :
  str_in "users" (lower_ascii q) && str_in "count" (lower_ascii q) = false ->
  str_in "products" (lower_ascii q) && str_in "price" (lower_ascii q)
    = false ->
  str_in "orders" (lower_ascii q) && str_in "total" (lower_ascii q) = false ->
  str_in "employees" (lower_ascii q) && str_in "salary" (lower_ascii q)
    = false ->
  dict_get MOCK_DATABASES dbname = Some tbls ->
  dict_get tbls t = Some schema ->
  exists new_sql df,
    mock_llm_query lower_ascii q (t :: rest) db = Ok new_sql
    /\ mock_execute_query lower_ascii new_sql db' = Ok df
    /\ df_columns df <> columns schema
    /\ (t <> "users" -> df = mkDataFrame sample_table)
    /\ (t = "users" ->
        df_columns df
        = ["id"; "username"; "email"; "created_at"; "is_active"]).
Proof.
  intros H1 H2 H3 H4 Hdb Ht.
  unfold mock_llm_query; simpl. rewrite H1, H2, H3, H4.
  apply dict_get_Some in Hdb. unfold MOCK_DATABASES in Hdb.
  list_cases Hdb; injection Hdb as -> ->;
    apply dict_get_Some in Ht; list_cases Ht; injection Ht as -> ->;
    (do 2 eexists; split; [reflexivity|];
     split; [vm_compute; reflexivity|];
     split; [vm_compute; discriminate|];
     split; [try (intros _; reflexivity); intros Hne; congruence|];
     try reflexivity; intros Heq; discriminate Heq).
Qed.

(** * The further properties at sample inputs *)

Lemma mock_llm_query_nonempty_witness :
  mock_llm_query lower_ascii "Show all" [] "hr_system"
  = Ok "SELECT * FROM table_name LIMIT 10;"
  /\ str_truthy "SELECT * FROM table_name LIMIT 10;" = true.
Proof.
  split; [reflexivity|].
  apply (mock_llm_query_nonempty lower_ascii "Show all" [] "hr_system").
  reflexivity.
Defined.

Lemma mock_execute_query_frame_witness :
  (1 <= df_len sample_count_frame)%nat
  /\ Forall (fun kv => length kv.2 = df_len sample_count_frame)
            (df_data sample_count_frame)
  /\ numeric_cols sample_count_frame <> []
  /\ render_results (mkSession "select count(*) from users"
                                (Some sample_count_frame) [])
     = Some (mkPanel (df_len sample_count_frame)
                     (length (df_columns sample_count_frame))
                     (Some (NumericSummary
                              (numeric_cols sample_count_frame)))).
Proof.
  apply (mock_execute_query_frame lower_ascii "select count(*) from users"
           "ecommerce_db" sample_count_frame
           (mkSession "select count(*) from users"
                      (Some sample_count_frame) []));
    reflexivity.
Defined.

Lemma execute_stores_results_witness :
  exists df,
    mock_execute_query lower_ascii "SELECT * FROM orders LIMIT 10;"
                       "ecommerce_db" = Ok df
    /\ state_of (user_action lower_ascii sample_execute
                   "2024-06-01 12:05:00" "2024-06-01 12:05:01"
                   sample_stored_heap sample_stored)
       = mkSession "SELECT * FROM orders LIMIT 10;" (Some df)
                   (query_history (init_session_state sample_stored)).
Proof.
  destruct (execute_stores_results lower_ascii sample_execute
              "2024-06-01 12:05:00" "2024-06-01 12:05:01"
              sample_stored_heap sample_stored eq_refl eq_refl)
    as (df & Hdf & Hstate & _).
  exists df. split; [exact Hdf | exact Hstate].
Defined.


Lemma generate_then_execute_witness :
  exists new_sql df c,
    mock_llm_query lower_ascii "Count the users" ["users"; "products"]
                   "ecommerce_db" = Ok new_sql
    /\ mock_execute_query lower_ascii new_sql "ecommerce_db" = Ok df
    /\ init_session_state
         (session_run lower_ascii
            [sample_click_generate; sample_click_execute] new_session).2
       = mkSession new_sql (Some df)
           [mkEntry "2024-06-01 12:00:00" "Count the users" new_sql c].
Proof.
  exact (generate_then_execute lower_ascii sample_click_generate
           sample_click_execute new_session eq_refl eq_refl).
Defined.

Lemma table_tabs_render_witness :
  exists tbls tabs,
    dict_get MOCK_DATABASES "hr_system" = Some tbls
    /\ table_tabs "hr_system" ["departments"; "employees"] = inr tabs
    /\ length tabs = 2.
Proof.
  eexists. 
  destruct (table_tabs_render "hr_system" _ ["departments"; "employees"]
              eq_refl) as (tabs & Htabs & Hall).
  - intros t Ht. simpl.
    apply elem_of_cons in Ht as [->|Ht]; [right; left|].
    apply elem_of_cons in Ht as [->|Ht]; [left|].
    apply elem_of_nil in Ht. destruct Ht.
  - exists tabs. split; [reflexivity|]. split; [exact Htabs|].
    apply Forall2_length in Hall. symmetry. exact Hall.
Defined.

Lemma table_tabs_missing_witness :
  table_tabs "hr_system" (["employees"] ++ "users" :: ["departments"])
  = inl (KeyError "users").
Proof.
  eapply (table_tabs_missing "hr_system" _ ["employees"] ["departments"]
            "users" eq_refl).
  - intros t Ht. apply elem_of_cons in Ht as [->|Ht]; [left|].
    apply elem_of_nil in Ht. destruct Ht.
  - reflexivity.
Defined.

Lemma default_selection_renders_witness :
  exists available tabs,
    available_tables "ecommerce_db" = inr available
    /\ default_tables available = take 2 available
    /\ length (default_tables available) = 2
    /\ (forall t, t ∈ default_tables available -> t ∈ available)
    /\ table_tabs "ecommerce_db" (default_tables available) = inr tabs
    /\ length tabs = 2.
Proof.
  apply (default_selection_renders "ecommerce_db"). left.
Defined.

Lemma catalog_consistent_witness :
  exists tbls schema,
    dict_get MOCK_DATABASES "ecommerce_db" = Some tbls
    /\ dict_get tbls "orders" = Some schema
    /\ String.prefix ("CREATE TABLE " +:+ "orders" +:+ " (") (ddl schema)
       = true
    /\ Forall (fun c => str_in c (ddl schema) = true) (columns schema)
    /\ NoDup (columns schema).
Proof.
  do 2 eexists. split; [reflexivity|]. split; [reflexivity|].
  exact (catalog_consistent "ecommerce_db" "orders" _ _ eq_refl eq_refl).
Defined.

Lemma keyword_sql_hits_same_rule_witness :
  exists executor_keys data,
    executor_rules !! 2 = Some (executor_keys, data)
    /\ Forall (fun k => str_in k (lower_ascii
         "SELECT SUM(total_amount) as total_revenue FROM orders WHERE status = 'completed';")
         = true) executor_keys
    /\ mock_execute_query lower_ascii
         "SELECT SUM(total_amount) as total_revenue FROM orders WHERE status = 'completed';"
         "hr_system"
       = Ok (mkDataFrame data).
Proof.
  exact (keyword_sql_hits_same_rule 2 ["orders"; "total"] _ "hr_system"
           eq_refl).
Defined.

Lemma fallback_ignores_schema_witness :
  exists tbls schema new_sql df,
    dict_get MOCK_DATABASES "ecommerce_db" = Some tbls
    /\ dict_get tbls "products" = Some schema
    /\ mock_llm_query lower_ascii "Show the products" ["products"; "users"]
                      "ecommerce_db" = Ok new_sql
    /\ mock_execute_query lower_ascii new_sql "ecommerce_db" = Ok df
    /\ df_columns df <> columns schema
    /\ ("products" <> "users" -> df = mkDataFrame sample_table).
Proof.
  do 2 eexists.
  destruct (fallback_ignores_schema "Show the products" "products" ["users"]
              "ecommerce_db" "ecommerce_db" "ecommerce_db" _ _
              eq_refl eq_refl eq_refl eq_refl eq_refl eq_refl)
    as (new_sql & df & Hgen & Hexec & Hcols & Hsample & _).
  exists new_sql, df.
  split; [reflexivity|]. split; [reflexivity|].
  split; [exact Hgen|]. split; [exact Hexec|].
  split; [exact Hcols | exact Hsample].
Defined.
